(** * DMRelay: relaying direct messages through a webhook

    A shallow embedding of [bot/cogs/dm_relay.py].  The cog holds two
    mutable attributes ([webhook] and [last_dm_user]) and talks to the
    outside world only through awaited calls (webhook posts, attachment
    forwarding, direct messages, reactions, the webhook fetch) and the
    logger.  A coroutine body is modelled as a function from the cog's
    attributes to an outcome (returned value or raised exception), the
    attributes afterwards and the list of calls it made, each paired with
    what the call did.  What a call does is not decided by this file: it
    is read from an environment. *)

From Stdlib Require Import String List ZArith Bool DecimalString.
From ExtLib Require Import Structures.Monad Structures.MonadState Structures.MonadExc.
Import ListNotations.
Import MonadNotation.
Local Open Scope string_scope.
Local Open Scope list_scope.
Local Open Scope Z_scope.
Local Open Scope monad_scope.

(** ** Data of the chat platform, as far as the cog reads it *)

(** [discord.User] / [discord.Member]: the attributes the cog and the role
    check read.  A plain user has no roles. *)
Record User := {
  user_id : Z;
  bot : bool;
  display_name : string;
  avatar_url : string;
  roles : list Z
}.

Record Attachment := {
  filename : string;
  url : string
}.

(** [discord.Message].  [guild] is [None] for a direct message. *)
Record Message := {
  message_id : Z;
  author : User;
  guild : option Z;
  clean_content : string;
  attachments : list Attachment
}.

Record Webhook := { webhook_ident : Z }.

Record Embed := {
  description : string;
  color : Z
}.

(** [discord.Color.red()]. *)
Definition Color_red : Z := 0xe74c3c.

(** [commands.Context]: the invoking message and its author. *)
Record Context := {
  ctx_message : Message;
  ctx_author : User;
  ctx_guild : option Z
}.

(** ** Exceptions *)

(** The exception classes that matter here.  [Forbidden], [NotFound] and
    [DiscordServerError] derive from [HTTPException]; [CheckFailure] is what
    the command framework raises when a check returns [False];
    [RuntimeError] stands for any exception outside the HTTP family. *)
Inductive exc :=
| Forbidden
| NotFound
| DiscordServerError
| HTTPException
| CheckFailure
| RuntimeError.

Definition exc_eqb (a b : exc) : bool :=
  match a, b with
  | Forbidden, Forbidden | NotFound, NotFound
  | DiscordServerError, DiscordServerError | HTTPException, HTTPException
  | CheckFailure, CheckFailure | RuntimeError, RuntimeError => true
  | _, _ => false
  end.

(** [isinstance(e, cls)]. *)
Definition isinstance (e cls : exc) : bool :=
  match cls, e with
  | HTTPException, (Forbidden | NotFound | DiscordServerError) => true
  | _, _ => exc_eqb e cls
  end.

(** ** Calls and traces *)

Inductive call :=
| SendWebhook (webhook : Webhook) (content : option string)
              (username : string) (avatar : string) (embed : option Embed)
| SendAttachments (message : Message) (destination : Webhook)
| Send (recipient : User) (content : string)
| AddReaction (message : Message) (emoji : string)
| WaitUntilGuildAvailable
| FetchWebhook (ident : Z)
| LogDebug (msg : string)
| LogException (msg : string) (e : exc).

(** One entry of the trace: the call, and the exception it raised if any. *)
Record event := Ev {
  ev_call : call;
  ev_raised : option exc
}.

(** [bot.constants]. *)
Record Constants := {
  Webhooks_dm_log : Z;
  MODERATION_ROLES : list Z
}.

(** What the collaborators do.  [raises c] is the exception an awaited
    call raises, [None] when it returns; [fetched i] is the handle
    [bot.fetch_webhook(i)] returns when it does not raise. *)
Record Env := {
  raises : call -> option exc;
  fetched : Z -> Webhook
}.

(** ** The cog's attributes *)

Record DMRelay := {
  webhook_id : Z;
  webhook : option Webhook;
  last_dm_user : option User
}.

Definition set_webhook (w : option Webhook) (self : DMRelay) : DMRelay :=
  {| webhook_id := webhook_id self; webhook := w; last_dm_user := last_dm_user self |}.

Definition set_last_dm_user (u : option User) (self : DMRelay) : DMRelay :=
  {| webhook_id := webhook_id self; webhook := webhook self; last_dm_user := u |}.

(** ** Coroutine bodies *)

Inductive outcome (A : Type) :=
| Returned (a : A)
| Raised (e : exc).
Arguments Returned {A} a.
Arguments Raised {A} e.

Definition Coro (A : Type) : Type :=
  DMRelay -> outcome A * DMRelay * list event.

Definition coro_ret {A} (a : A) : Coro A :=
  fun self => (Returned a, self, []).

(** Sequencing: attribute writes and calls made before an exception stay. *)
Definition coro_bind {A B} (c : Coro A) (k : A -> Coro B) : Coro B :=
  fun self =>
    match c self with
    | (Returned a, self1, t1) =>
        match k a self1 with
        | (r, self2, t2) => (r, self2, t1 ++ t2)
        end
    | (Raised e, self1, t1) => (Raised e, self1, t1)
    end.

Definition coro_raise {A} (e : exc) : Coro A :=
  fun self => (Raised e, self, []).

(** [try: c  except ...: h e]; a handler that matches no clause re-raises. *)
Definition coro_catch {A} (c : Coro A) (h : exc -> Coro A) : Coro A :=
  fun self =>
    match c self with
    | (Returned a, self1, t1) => (Returned a, self1, t1)
    | (Raised e, self1, t1) =>
        match h e self1 with
        | (r, self2, t2) => (r, self2, t1 ++ t2)
        end
    end.

#[global] Instance Monad_Coro : Monad Coro :=
  {| ret := @coro_ret; bind := @coro_bind |}.

#[global] Instance MonadState_Coro : MonadState DMRelay Coro :=
  {| get := fun self => (Returned self, self, []);
     put := fun s _ => (Returned tt, s, []) |}.

#[global] Instance MonadExc_Coro : MonadExc exc Coro :=
  {| raise := @coro_raise; catch := @coro_catch |}.

(** Truthiness of the values the cog tests. *)
Definition truthy_str (s : string) : bool :=
  match s with EmptyString => false | _ => true end.

Definition truthy_list {A} (l : list A) : bool :=
  match l with [] => false | _ => true end.

Definition truthy_opt {A} (o : option A) : bool :=
  match o with None => false | Some _ => true end.

(** [str(n)] for an integer. *)
Definition str_of_int (n : Z) : string :=
  NilZero.string_of_int (Z.to_int n).

(** [DMRelay.__init__]: the attributes before [fetch_webhook] has run. *)
Definition init (cfg : Constants) : DMRelay :=
  {| webhook_id := Webhooks_dm_log cfg; webhook := None; last_dm_user := None |}.

(** Why [on_message] returned at line 67, by the operand of the [or] that
    was truthy. *)
Inductive skipped :=
| AuthorIsBot
| FromGuild
| NoWebhook.

(** [message.author.bot or message.guild or self.webhook is None]: the
    operands are evaluated left to right and the first truthy one decides. *)
Definition relay_guard (self : DMRelay) (message : Message) : skipped + Webhook :=
  if bot (author message) then inl AuthorIsBot
  else if truthy_opt (guild message) then inl FromGuild
  else match webhook self with
       | None => inl NoWebhook
       | Some w => inr w
       end.

Definition attachment_error_embed : Embed :=
  {| description := ":x: **This message contained an attachment, but it could not be retrieved**";
     color := Color_red |}.

Section Cog.

Variable cfg : Constants.
Variable env : Env.

(** An awaited call: recorded with its result, raising when the
    environment says so. *)
Definition await (c : call) : Coro unit :=
  fun self =>
    match raises env c with
    | None => (Returned tt, self, [Ev c None])
    | Some e => (Raised e, self, [Ev c (Some e)])
    end.

(** The logger: recorded, never raises. *)
Definition log (c : call) : Coro unit :=
  fun self => (Returned tt, self, [Ev c None]).

(** [self.webhook = await self.bot.fetch_webhook(self.webhook_id)]: the
    attribute is written only when the call returns. *)
Definition bot_fetch_webhook (i : Z) : Coro Webhook :=
  fun self =>
    match raises env (FetchWebhook i) with
    | None => (Returned (fetched env i), self, [Ev (FetchWebhook i) None])
    | Some e => (Raised e, self, [Ev (FetchWebhook i) (Some e)])
    end.

Definition send_dm (ctx : Context) (member : option User) (message : string)
  : Coro unit :=
  match member with
  | Some m =>
      await (Send m message) ;;
      await (AddReaction (ctx_message ctx) "✅")
  | None =>
      self <- get ;;
      match last_dm_user self with
      | Some u =>
          await (Send u message) ;;
          await (AddReaction (ctx_message ctx) "✅")
      | None =>
          log (LogDebug "Unable to send a DM to the user.") ;;
          await (AddReaction (ctx_message ctx) "❌")
      end
  end.

Definition fetch_webhook : Coro unit :=
  await WaitUntilGuildAvailable ;;
  self <- get ;;
  catch
    (w <- bot_fetch_webhook (webhook_id self) ;;
     self' <- get ;;
     put (set_webhook (Some w) self'))
    (fun e =>
       if isinstance e HTTPException then
         log (LogException
                ("Failed to fetch webhook with id `" ++ str_of_int (webhook_id self) ++ "`")%string
                e)
       else raise e).

Definition on_message (message : Message) : Coro unit :=
  self <- get ;;
  match relay_guard self message with
  | inl _ => ret tt
  | inr w =>
      let clean := clean_content message in
      (if truthy_str clean then
         await (SendWebhook w (Some (clean_content message))
                  (display_name (author message))
                  (avatar_url (author message)) None) ;;
         self' <- get ;;
         put (set_last_dm_user (Some (author message)) self')
       else ret tt) ;;
      if truthy_list (attachments message) then
        catch
          (await (SendAttachments message w))
          (fun e =>
             if isinstance e Forbidden || isinstance e NotFound then
               await (SendWebhook w None
                        (display_name (author message))
                        (avatar_url (author message))
                        (Some attachment_error_embed))
             else if isinstance e HTTPException then
               log (LogException "Failed to send an attachment to the webhook" e)
             else raise e)
      else ret tt
  end.

(** Modelled from the spec: [bot.utils.checks.with_role_check], whose
    source is not part of the cog's file.  It tells whether the invoking
    operator holds at least one of the given role identifiers. *)
Definition with_role_check (ctx : Context) (role_ids : list Z) : bool :=
  existsb (fun r => existsb (Z.eqb r) role_ids) (roles (ctx_author ctx)).

Definition cog_check (ctx : Context) : bool :=
  with_role_check ctx (MODERATION_ROLES cfg).

(** Modelled from the spec: the command framework's dispatch of the
    [send_dm] command (alias [reply]), which is library code.  The cog's
    check runs first; the command body runs only when it passes, and a
    failed check is reported as [CheckFailure]. *)
Definition invoke_send_dm (ctx : Context) (member : option User) (message : string)
  : Coro unit :=
  if cog_check ctx then send_dm ctx member message
  else raise CheckFailure.

(** The messages the event loop hands to [on_message], one after the
    other: the attributes are threaded through and the calls accumulate,
    whether a handler returned or raised. *)
Fixpoint deliver (messages : list Message) (self : DMRelay) : DMRelay * list event :=
  match messages with
  | [] => (self, [])
  | message :: rest =>
      match on_message message self with
      | (_, self1, t1) =>
          match deliver rest self1 with
          | (self2, t2) => (self2, t1 ++ t2)
          end
      end
  end.

End Cog.

(** ** Sample data *)

Definition alice : User :=
  {| user_id := 101; bot := false; display_name := "alice";
     avatar_url := "https://cdn.example/avatars/101.png"; roles := [] |}.

Definition bob : User :=
  {| user_id := 102; bot := false; display_name := "bob";
     avatar_url := "https://cdn.example/avatars/102.png"; roles := [] |}.

Definition moderator : User :=
  {| user_id := 7; bot := false; display_name := "mod";
     avatar_url := "https://cdn.example/avatars/7.png"; roles := [5; 20] |}.

Definition helper : User :=
  {| user_id := 8; bot := false; display_name := "helper";
     avatar_url := "https://cdn.example/avatars/8.png"; roles := [5] |}.

Definition sample_cfg : Constants :=
  {| Webhooks_dm_log := 654321; MODERATION_ROLES := [10; 20; 30] |}.

Definition dm_log : Webhook := {| webhook_ident := 654321 |}.

Definition picture : Attachment :=
  {| filename := "cat.png"; url := "https://cdn.example/attachments/cat.png" |}.

(** A direct message with an attachment and no text. *)
Definition picture_dm : Message :=
  {| message_id := 2; author := bob; guild := None;
     clean_content := ""; attachments := [picture] |}.

(** A direct message with both. *)
Definition captioned_dm : Message :=
  {| message_id := 3; author := bob; guild := None;
     clean_content := "look"; attachments := [picture] |}.

(** The same text, posted in a guild channel. *)
Definition guild_msg : Message :=
  {| message_id := 4; author := bob; guild := Some 900;
     clean_content := "hello"; attachments := [] |}.

(** The command message [!reply thanks] of a moderator. *)
Definition reply_msg (who : User) : Message :=
  {| message_id := 5; author := who; guild := Some 900;
     clean_content := "!reply thanks"; attachments := [] |}.

Definition reply_ctx (who : User) : Context :=
  {| ctx_message := reply_msg who; ctx_author := who; ctx_guild := Some 900 |}.

(** Every call returns. *)
Definition env_ok : Env :=
  {| raises := fun _ => None; fetched := fun i => {| webhook_ident := i |} |}.

(** Forwarding attachments fails with [e]; every other call returns. *)
Definition env_forward_fails (e : exc) : Env :=
  {| raises := fun c => match c with SendAttachments _ _ => Some e | _ => None end;
     fetched := fun i => {| webhook_ident := i |} |}.

(** Fetching the webhook fails with [e]; every other call returns. *)
Definition env_fetch_fails (e : exc) : Env :=
  {| raises := fun c => match c with FetchWebhook _ => Some e | _ => None end;
     fetched := fun i => {| webhook_ident := i |} |}.

(** The cog once the webhook has been fetched, with [u] recorded. *)
Definition ready (u : option User) : DMRelay :=
  {| webhook_id := 654321; webhook := Some dm_log; last_dm_user := u |}.

(** ** Reading a trace *)

(** A webhook post that carries text. *)
Definition is_text_post (ev : event) : bool :=
  match ev_call ev with
  | SendWebhook _ (Some _) _ _ _ => true
  | _ => false
  end.

(** A webhook post that carries an embed. *)
Definition is_embed_post (ev : event) : bool :=
  match ev_call ev with
  | SendWebhook _ _ _ _ (Some _) => true
  | _ => false
  end.

Definition is_forward (ev : event) : bool :=
  match ev_call ev with
  | SendAttachments _ _ => true
  | _ => false
  end.

Definition is_fetch (ev : event) : bool :=
  match ev_call ev with
  | FetchWebhook _ => true
  | _ => false
  end.

(** A direct message sent by the bot. *)
Definition is_dm (ev : event) : bool :=
  match ev_call ev with
  | Send _ _ => true
  | _ => false
  end.

(** The post of the text of [message] through [w], with what it raised. *)
Definition text_post (w : Webhook) (message : Message) (o : option exc) : event :=
  Ev (SendWebhook w (Some (clean_content message))
        (display_name (author message)) (avatar_url (author message)) None) o.

(** The notice posted through [w] when the attachments of [message] could
    not be retrieved. *)
Definition error_post (w : Webhook) (message : Message) (o : option exc) : event :=
  Ev (SendWebhook w None
        (display_name (author message)) (avatar_url (author message))
        (Some attachment_error_embed)) o.

(** What a run leaves behind. *)
Definition attrs_after {A} (x : outcome A * DMRelay * list event) : DMRelay :=
  snd (fst x).

(** ** More readings of a trace *)

Definition is_webhook_post (ev : event) : bool :=
  match ev_call ev with
  | SendWebhook _ _ _ _ _ => true
  | _ => false
  end.

Definition is_reaction (ev : event) : bool :=
  match ev_call ev with
  | AddReaction _ _ => true
  | _ => false
  end.

(** An entry written by the logger. *)
Definition is_log (ev : event) : bool :=
  match ev_call ev with
  | LogDebug _ | LogException _ _ => true
  | _ => false
  end.

(** The calls [on_message] may make for [message] while [w] is held: a post
    through [w] under the author's display name and avatar, the forward of
    this very message to [w], or a log entry of an exception. *)
Definition relay_event (w : Webhook) (message : Message) (ev : event) : Prop :=
  match ev_call ev with
  | SendWebhook w' _ u a _ =>
      w' = w /\ u = display_name (author message) /\ a = avatar_url (author message)
  | SendAttachments m' w' => m' = message /\ w' = w
  | LogException _ _ => True
  | _ => False
  end.

(** The calls [send_dm] may make: a direct message carrying [body], a
    reaction on the invoking message, or a debug log entry. *)
Definition reply_event (ctx : Context) (body : string) (ev : event) : Prop :=
  match ev_call ev with
  | Send _ b => b = body
  | AddReaction m _ => m = ctx_message ctx
  | LogDebug _ => True
  | _ => False
  end.

(** [u] wrote one of [messages] as a human, in a direct message, with text. *)
Definition text_dm_sender (messages : list Message) (u : User) : Prop :=
  exists m, In m messages /\ author m = u /\ bot u = false
            /\ guild m = None /\ clean_content m <> "".

(** Posting text fails with [e]; every other call returns. *)
Definition env_text_post_fails (e : exc) : Env :=
  {| raises := fun c => match c with
                        | SendWebhook _ (Some _) _ _ _ => Some e
                        | _ => None
                        end;
     fetched := fun i => {| webhook_ident := i |} |}.

(** Sending a direct message fails with [e]; every other call returns. *)
Definition env_dm_fails (e : exc) : Env :=
  {| raises := fun c => match c with Send _ _ => Some e | _ => None end;
     fetched := fun i => {| webhook_ident := i |} |}.

(** A direct message of a human with neither text nor attachments. *)
Definition blank_dm : Message :=
  {| message_id := 6; author := bob; guild := None;
     clean_content := ""; attachments := [] |}.

(** A direct message with text, written by [alice]. *)
Definition alice_dm : Message :=
  {| message_id := 7; author := alice; guild := None;
     clean_content := "hi"; attachments := [] |}.

(** ** Properties *)

Ltac coro_simpl :=
  cbn [bind ret get put raise catch Monad_Coro MonadState_Coro MonadExc_Coro] in *;
  unfold coro_bind, coro_ret, coro_raise, coro_catch, await, log, bot_fetch_webhook in *.

Section Properties.

Variable cfg : Constants.
Variable env : Env.

Lemma relay_guard_inr self message w :
  bot (author message) = false -> guild message = None -> webhook self = Some w ->
  relay_guard self message = inr w.
Proof.
  intros Hb Hg Hw. unfold relay_guard. rewrite Hb, Hg, Hw. reflexivity.
Qed.

Lemma truthy_str_nonempty s : s <> "" -> truthy_str s = true.
Proof. destruct s; [congruence | reflexivity]. Qed.

Lemma truthy_list_nonempty {A} (l : list A) : l <> [] -> truthy_list l = true.
Proof. destruct l; [congruence | reflexivity]. Qed.

(** C2. A message whose author is a bot, or that comes from a guild, or
    that arrives while no webhook is held, makes [on_message] return with
    no call made and the attributes (so [last_dm_user]) as they were.  The
    three tests are made in this order and the first that holds decides:
    a bot author decides whatever the other two are, a guild decides only
    for a human author, and the missing webhook only for a human author
    outside a guild. *)
Theorem on_message_skips self message :
  bot (author message) = true \/ guild message <> None \/ webhook self = None ->
  on_message env message self = (Returned tt, self, [])
  /\ (bot (author message) = true -> relay_guard self message = inl AuthorIsBot)
  /\ (bot (author message) = false -> guild message <> None ->
      relay_guard self message = inl FromGuild)
  /\ (bot (author message) = false -> guild message = None -> webhook self = None ->
      relay_guard self message = inl NoWebhook).
Proof.
  intros H. unfold on_message, relay_guard. coro_simpl.
  destruct (bot (author message)), (guild message), (webhook self);
    cbn; repeat split; intros; try reflexivity; try congruence;
    destruct H as [H | [H | H]]; congruence.
Qed.

(** C1. A direct message of a human, received while the webhook is held
    and with text in it, makes [on_message] post that text through the
    webhook exactly once, under the author's display name and avatar; once
    that post has returned, [last_dm_user] is the author, whatever happens
    to the attachments afterwards.  The handler returns only if the post
    did. *)
Theorem on_message_relays_text self message w r self' tr :
  bot (author message) = false -> guild message = None -> webhook self = Some w ->
  clean_content message <> "" ->
  on_message env message self = (r, self', tr) ->
  exists o,
    filter is_text_post tr = [text_post w message o]
    /\ (o = None -> last_dm_user self' = Some (author message))
    /\ (r = Returned tt -> o = None).
Proof.
  intros Hb Hg Hw Hc Hrun. unfold on_message in Hrun. coro_simpl.
  rewrite (relay_guard_inr _ _ _ Hb Hg Hw) in Hrun.
  rewrite (truthy_str_nonempty _ Hc) in Hrun.
  exists (raises env (ev_call (text_post w message None))).
  unfold text_post in *. cbn [ev_call] in *.
  destruct (raises env (SendWebhook w (Some (clean_content message)) _ _ None)) as [e1|].
  - inversion Hrun; subst. cbn. repeat split; congruence.
  - destruct (attachments message) as [|a l]; cbn [truthy_list] in Hrun.
    + inversion Hrun; subst. cbn. repeat split; reflexivity.
    + destruct (raises env (SendAttachments message w)) as [e2|].
      * destruct e2; cbn in Hrun;
          try destruct (raises env (SendWebhook w None _ _ (Some _)));
          inversion Hrun; subst; cbn; repeat split; reflexivity.
      * inversion Hrun; subst. cbn. repeat split; reflexivity.
Qed.

Ltac forward_cases Hrun :=
  match type of Hrun with
  | context [raises ?env (SendWebhook ?w (Some ?c) ?u ?a None)] =>
      destruct (raises env (SendWebhook w (Some c) u a None))
  | _ => idtac
  end;
  match type of Hrun with
  | context [raises ?env (SendAttachments ?m ?w)] =>
      let e := fresh "e" in
      destruct (raises env (SendAttachments m w)) as [e|]; [destruct e|]
  | _ => idtac
  end;
  cbn in Hrun;
  match type of Hrun with
  | context [raises ?env (SendWebhook ?w None ?u ?a (Some ?em))] =>
      destruct (raises env (SendWebhook w None u a (Some em)))
  | _ => idtac
  end;
  inversion Hrun; subst; clear Hrun.

Ltac in_trace H :=
  cbn in H;
  repeat match type of H with
         | _ \/ _ => destruct H as [H | H]
         | False => contradiction
         | _ = _ => try discriminate H; inversion H; subst; clear H
         end.

(** C3. On a direct message of a human with attachments, received while
    the webhook is held: when the forwarding of the attachments was
    attempted and failed with [Forbidden] or [NotFound], the handler posts
    a notice through the webhook, under the author's display name and
    avatar, right after the failed forward.  The notice carries no text
    but one embed, whose description reads ":x: **This message contained
    an attachment, but it could not be retrieved**" and whose colour is
    red (0xe74c3c).  It is the only embed the handler posts, and the
    forward is not attempted again. *)
Theorem on_message_attachment_unavailable self message w e r self' tr :
  bot (author message) = false -> guild message = None -> webhook self = Some w ->
  attachments message <> [] ->
  on_message env message self = (r, self', tr) ->
  In (Ev (SendAttachments message w) (Some e)) tr ->
  e = Forbidden \/ e = NotFound ->
  exists pre o,
    tr = pre ++ [Ev (SendAttachments message w) (Some e);
                 Ev (SendWebhook w None
                       (display_name (author message)) (avatar_url (author message))
                       (Some {| description :=
                                  ":x: **This message contained an attachment, but it could not be retrieved**";
                                color := 0xe74c3c |})) o]
    /\ filter is_embed_post tr
       = [Ev (SendWebhook w None
                (display_name (author message)) (avatar_url (author message))
                (Some {| description :=
                           ":x: **This message contained an attachment, but it could not be retrieved**";
                         color := 0xe74c3c |})) o]
    /\ filter is_forward pre = []
    /\ description attachment_error_embed
       = ":x: **This message contained an attachment, but it could not be retrieved**"
    /\ color attachment_error_embed = 0xe74c3c
    /\ color attachment_error_embed = Color_red.
Proof.
  intros Hb Hg Hw Ha Hrun Hin He. unfold on_message in Hrun. coro_simpl.
  rewrite (relay_guard_inr _ _ _ Hb Hg Hw) in Hrun.
  rewrite (truthy_list_nonempty _ Ha) in Hrun.
  destruct (truthy_str (clean_content message));
    forward_cases Hrun; in_trace Hin;
    try (destruct He; discriminate);
    first
      [ eexists [_], _; cbn; repeat split; reflexivity
      | eexists [], _; cbn; repeat split; reflexivity ].
Qed.

(** C9. In the same situation, when the forwarding of the attachments was
    attempted and failed with an [HTTPException] that is neither
    [Forbidden] nor [NotFound]: the handler returns (nothing is raised),
    the failed forward is followed by the log entry and by nothing else,
    no notice is posted, and the only call made before the forward is the
    text post, if any. *)
Theorem on_message_attachment_transport_error self message w e r self' tr :
  bot (author message) = false -> guild message = None -> webhook self = Some w ->
  attachments message <> [] ->
  on_message env message self = (r, self', tr) ->
  In (Ev (SendAttachments message w) (Some e)) tr ->
  isinstance e HTTPException = true -> e <> Forbidden -> e <> NotFound ->
  r = Returned tt
  /\ exists pre,
       tr = pre ++ [Ev (SendAttachments message w) (Some e);
                    Ev (LogException "Failed to send an attachment to the webhook" e) None]
       /\ (pre = [] \/ pre = [text_post w message None])
       /\ filter is_embed_post tr = [].
Proof.
  intros Hb Hg Hw Ha Hrun Hin He Hf Hn. unfold on_message in Hrun. coro_simpl.
  rewrite (relay_guard_inr _ _ _ Hb Hg Hw) in Hrun.
  rewrite (truthy_list_nonempty _ Ha) in Hrun.
  unfold text_post.
  destruct (truthy_str (clean_content message));
    forward_cases Hrun; in_trace Hin;
    try congruence; try discriminate He;
    (split; [reflexivity|]);
    first
      [ eexists [_]; cbn; repeat split; solve [reflexivity | right; reflexivity]
      | eexists []; cbn; repeat split; solve [reflexivity | left; reflexivity] ].
Qed.

(** A message without text never changes [last_dm_user], even when its
    attachments are forwarded. *)
Lemma on_message_without_text self message r self' tr :
  clean_content message = "" ->
  on_message env message self = (r, self', tr) ->
  self' = self.
Proof.
  intros Hc Hrun. unfold on_message in Hrun. coro_simpl.
  rewrite Hc in Hrun. cbn [truthy_str] in Hrun.
  destruct (relay_guard self message) as [|w]; [now inversion Hrun|].
  destruct (truthy_list (attachments message));
    forward_cases Hrun; reflexivity.
Qed.

Ltac reply_cases Hrun :=
  repeat match type of Hrun with
         | context [raises ?env (Send ?u ?b)] =>
             destruct (raises env (Send u b))
         | context [raises ?env (AddReaction ?m ?r)] =>
             destruct (raises env (AddReaction m r))
         end;
  cbn in Hrun; inversion Hrun; subst; clear Hrun.

(** C5. An authorized [reply] without a target: when [last_dm_user] is a
    user [u], the body is sent to [u] as a direct message, it is the only
    direct message sent, and once it has returned the invoking message
    gets the reaction ✅; when [last_dm_user] is unset, the calls made are
    the debug log entry and the reaction ❌ on the invoking message, and no
    direct message is sent. *)
Theorem reply_without_target self ctx body r self' tr :
  cog_check cfg ctx = true ->
  invoke_send_dm cfg env ctx None body self = (r, self', tr) ->
  (forall u, last_dm_user self = Some u ->
     exists o,
       filter is_dm tr = [Ev (Send u body) o]
       /\ hd_error tr = Some (Ev (Send u body) o)
       /\ (o = None ->
           exists o', tr = [Ev (Send u body) None;
                            Ev (AddReaction (ctx_message ctx) "✅") o']))
  /\ (last_dm_user self = None ->
      filter is_dm tr = []
      /\ exists o', tr = [Ev (LogDebug "Unable to send a DM to the user.") None;
                          Ev (AddReaction (ctx_message ctx) "❌") o']).
Proof.
  intros Hauth Hrun. unfold invoke_send_dm in Hrun. rewrite Hauth in Hrun.
  unfold send_dm in Hrun. coro_simpl. split.
  - intros u Hu. rewrite Hu in Hrun.
    exists (raises env (Send u body)).
    reply_cases Hrun; cbn; repeat split; try discriminate;
      intros _; eexists; reflexivity.
  - intros Hu. rewrite Hu in Hrun.
    reply_cases Hrun; cbn; split; try reflexivity; eexists; reflexivity.
Qed.

(** C6. An authorized [reply] with a target [m]: the body is sent to [m]
    as a direct message, whatever [last_dm_user] is; it is the only direct
    message sent, and once it has returned the invoking message gets the
    reaction ✅. *)
Theorem reply_with_target self ctx m body r self' tr :
  cog_check cfg ctx = true ->
  invoke_send_dm cfg env ctx (Some m) body self = (r, self', tr) ->
  exists o,
    filter is_dm tr = [Ev (Send m body) o]
    /\ hd_error tr = Some (Ev (Send m body) o)
    /\ (o = None ->
        exists o', tr = [Ev (Send m body) None;
                         Ev (AddReaction (ctx_message ctx) "✅") o']).
Proof.
  intros Hauth Hrun. unfold invoke_send_dm in Hrun. rewrite Hauth in Hrun.
  unfold send_dm in Hrun. coro_simpl.
  exists (raises env (Send m body)).
  reply_cases Hrun; cbn; repeat split; try discriminate;
    intros _; eexists; reflexivity.
Qed.

Lemma with_role_check_false ctx role_ids :
  (forall role, In role (roles (ctx_author ctx)) -> ~ In role role_ids) ->
  with_role_check ctx role_ids = false.
Proof.
  intros H. unfold with_role_check.
  destruct (existsb _ (roles (ctx_author ctx))) eqn:E; [|reflexivity].
  apply existsb_exists in E. destruct E as (role & Hin & E).
  apply existsb_exists in E. destruct E as (role' & Hin' & E).
  apply Z.eqb_eq in E. subst role'. exfalso. exact (H role Hin Hin').
Qed.

(** C7. A [reply] invoked by an operator who holds none of the moderation
    roles is rejected by the check: the command body does not run, no call
    at all is made (no direct message, no reaction, no webhook post) and
    the attributes are as they were. *)
Theorem unauthorized_reply_rejected self ctx member body :
  (forall role, In role (roles (ctx_author ctx)) -> ~ In role (MODERATION_ROLES cfg)) ->
  cog_check cfg ctx = false
  /\ invoke_send_dm cfg env ctx member body self = (Raised CheckFailure, self, []).
Proof.
  intros H. unfold invoke_send_dm, cog_check.
  rewrite (with_role_check_false _ _ H). split; reflexivity.
Qed.




(** C10. [send_dm] leaves the attributes of the cog as they were, for every
    target and whatever the calls do, and so does the gated command.  Of
    the other two coroutines, [on_message] never writes the webhook and
    [fetch_webhook] never writes [last_dm_user]. *)
Theorem send_dm_preserves_attributes self ctx member body :
  attrs_after (send_dm env ctx member body self) = self
  /\ attrs_after (invoke_send_dm cfg env ctx member body self) = self
  /\ (forall message,
        webhook (attrs_after (on_message env message self)) = webhook self
        /\ webhook_id (attrs_after (on_message env message self)) = webhook_id self)
  /\ last_dm_user (attrs_after (fetch_webhook env self)) = last_dm_user self.
Proof.
  assert (Hbody : forall m, attrs_after (send_dm env ctx m body self) = self).
  { intros m. unfold send_dm, attrs_after. coro_simpl.
    destruct m as [m|]; [|destruct (last_dm_user self)];
      repeat match goal with
             | |- context [raises ?env ?c] => destruct (raises env c)
             end; reflexivity. }
  split; [apply Hbody|]. split.
  { unfold invoke_send_dm. destruct (cog_check cfg ctx); [apply Hbody | reflexivity]. }
  split.
  - intros message. unfold on_message, attrs_after. coro_simpl.
    destruct (relay_guard self message) as [|w]; [split; reflexivity|].
    destruct (truthy_str (clean_content message)),
             (truthy_list (attachments message)); cbn;
      repeat match goal with
             | |- context [raises ?env ?c] => destruct (raises env c)
             | |- context [match ?e with Forbidden => _ | _ => _ end] => destruct e
             end; cbn; split; reflexivity.
  - unfold fetch_webhook, attrs_after. coro_simpl.
    destruct (raises env WaitUntilGuildAvailable); [reflexivity|].
    destruct (raises env (FetchWebhook (webhook_id self))) as [e|]; [|reflexivity].
    destruct (isinstance e HTTPException); reflexivity.
Qed.

(** ** Further behaviour of the three coroutines *)

Lemma truthy_str_true s : truthy_str s = true -> s <> "".
Proof. destruct s; [discriminate | discriminate]. Qed.

Lemma relay_guard_inr_inv self message w :
  relay_guard self message = inr w ->
  bot (author message) = false /\ guild message = None /\ webhook self = Some w.
Proof.
  unfold relay_guard.
  destruct (bot (author message)), (guild message), (webhook self);
    cbn; intros H; inversion H; subst; repeat split.
Qed.

(** X1. When the fetch at startup returned, [fetch_webhook] returns with
    the fetched handle stored in [webhook] (whatever was held before) and
    the other attributes untouched; the wait and the fetch are the only
    calls, nothing is logged. *)
Theorem fetch_webhook_stores_handle self r self' tr :
  fetch_webhook env self = (r, self', tr) ->
  In (Ev (FetchWebhook (webhook_id self)) None) tr ->
  r = Returned tt
  /\ webhook self' = Some (fetched env (webhook_id self))
  /\ last_dm_user self' = last_dm_user self
  /\ webhook_id self' = webhook_id self
  /\ tr = [Ev WaitUntilGuildAvailable None; Ev (FetchWebhook (webhook_id self)) None].
Proof.
  intros Hrun Hin. unfold fetch_webhook in Hrun. coro_simpl.
  destruct (raises env WaitUntilGuildAvailable).
  { inversion Hrun; subst. in_trace Hin. }
  destruct (raises env (FetchWebhook (webhook_id self))) as [e|].
  - destruct (isinstance e HTTPException); inversion Hrun; subst; in_trace Hin.
  - inversion Hrun; subst. cbn. repeat split; reflexivity.
Qed.

(** X2. [fetch_webhook] raises in two cases only: the wait for the guild
    raised, and then the fetch is not attempted; or the fetch raised an
    exception outside the [HTTPException] family.  Either way the
    exception is the one of the last call, the attributes are as they were
    and nothing is logged. *)
Theorem fetch_webhook_raises_only self e self' tr :
  fetch_webhook env self = (Raised e, self', tr) ->
  self' = self
  /\ filter is_log tr = []
  /\ (tr = [Ev WaitUntilGuildAvailable (Some e)]
      \/ (isinstance e HTTPException = false
          /\ tr = [Ev WaitUntilGuildAvailable None;
                   Ev (FetchWebhook (webhook_id self)) (Some e)])).
Proof.
  intros Hrun. unfold fetch_webhook in Hrun. coro_simpl.
  destruct (raises env WaitUntilGuildAvailable).
  { inversion Hrun; subst. cbn. repeat split. left; reflexivity. }
  destruct (raises env (FetchWebhook (webhook_id self))) as [e'|].
  - destruct (isinstance e' HTTPException) eqn:Ei; inversion Hrun; subst.
    cbn. repeat split. right. split; [exact Ei | reflexivity].
  - inversion Hrun.
Qed.

(** X3. When the post of the text was attempted and raised, [on_message]
    raises the same exception at once: [last_dm_user] is not written and
    the attachments of the message are never forwarded. *)
Theorem on_message_text_post_failure self message w e r self' tr :
  webhook self = Some w ->
  on_message env message self = (r, self', tr) ->
  In (text_post w message (Some e)) tr ->
  r = Raised e /\ self' = self /\ tr = [text_post w message (Some e)].
Proof.
  intros Hw Hrun Hin. unfold on_message in Hrun. coro_simpl.
  destruct (relay_guard self message) as [|w'] eqn:Eg.
  { inversion Hrun; subst. in_trace Hin. }
  destruct (relay_guard_inr_inv _ _ _ Eg) as (_ & _ & Hw').
  assert (w' = w) by congruence. subst w'.
  unfold text_post in *.
  destruct (truthy_str (clean_content message)),
           (truthy_list (attachments message));
    forward_cases Hrun; in_trace Hin; repeat split; reflexivity.
Qed.

(** X4. An exception that escapes [on_message] is always the one raised by
    the last call the handler made, and that call is either a webhook post
    or the forward of the attachments failing outside the [HTTPException]
    family: a forward that fails with an [HTTPException] never makes the
    handler raise by itself.  Nothing is logged on such a run. *)
Theorem on_message_raises_only self message e self' tr :
  on_message env message self = (Raised e, self', tr) ->
  exists pre c,
    tr = pre ++ [Ev c (Some e)]
    /\ (is_webhook_post (Ev c (Some e)) = true
        \/ (is_forward (Ev c (Some e)) = true /\ isinstance e HTTPException = false))
    /\ filter is_log tr = [].
Proof.
  intros Hrun. unfold on_message in Hrun. coro_simpl.
  destruct (relay_guard self message) as [|w]; [inversion Hrun|].
  destruct (truthy_str (clean_content message)),
           (truthy_list (attachments message));
    forward_cases Hrun;
    first
      [ eexists [], _; cbn; repeat split; solve [left; reflexivity | right; split; reflexivity]
      | eexists [_], _; cbn; repeat split; solve [left; reflexivity | right; split; reflexivity]
      | eexists [_; _], _; cbn; repeat split; solve [left; reflexivity | right; split; reflexivity] ].
Qed.

(** X5. When the forward of the attachments was attempted and returned,
    [on_message] returns and the forward is its last call: no notice is
    posted, nothing is logged, and the only call before it is the post of
    the text, which returned. *)
Theorem on_message_forward_returned self message w r self' tr :
  webhook self = Some w ->
  on_message env message self = (r, self', tr) ->
  In (Ev (SendAttachments message w) None) tr ->
  r = Returned tt
  /\ exists pre,
       tr = pre ++ [Ev (SendAttachments message w) None]
       /\ (pre = [] \/ pre = [text_post w message None])
       /\ filter is_embed_post tr = []
       /\ filter is_log tr = [].
Proof.
  intros Hw Hrun Hin. unfold on_message in Hrun. coro_simpl.
  destruct (relay_guard self message) as [|w'] eqn:Eg.
  { inversion Hrun; subst. in_trace Hin. }
  destruct (relay_guard_inr_inv _ _ _ Eg) as (_ & _ & Hw').
  assert (w' = w) by congruence. subst w'.
  unfold text_post.
  destruct (truthy_str (clean_content message)),
           (truthy_list (attachments message));
    forward_cases Hrun; in_trace Hin;
    (split; [reflexivity|]);
    first
      [ eexists [_]; cbn; repeat split; solve [reflexivity | right; reflexivity]
      | eexists []; cbn; repeat split; solve [reflexivity | left; reflexivity] ].
Qed.

Lemma truthy_str_false s : truthy_str s = false -> s = "".
Proof. destruct s; [reflexivity | discriminate]. Qed.

Lemma truthy_list_false {A} (l : list A) : truthy_list l = false -> l = [].
Proof. destruct l; [reflexivity | discriminate]. Qed.

Lemma truthy_list_true {A} (l : list A) : truthy_list l = true -> l <> [].
Proof. destruct l; [discriminate | discriminate]. Qed.

(** X6. [on_message] makes no call exactly when one of the three tests of
    line 67 holds or the message has neither text nor attachments; on such
    a run it returns and writes no attribute.  So a direct message of a
    human with nothing but, say, a sticker is dropped silently. *)
Theorem on_message_silent_iff self message r self' tr :
  on_message env message self = (r, self', tr) ->
  (tr = [] <->
   (exists why, relay_guard self message = inl why)
   \/ (clean_content message = "" /\ attachments message = []))
  /\ (tr = [] -> r = Returned tt /\ self' = self).
Proof.
  intros Hrun. unfold on_message in Hrun. coro_simpl.
  destruct (relay_guard self message) as [why|w].
  { inversion Hrun; subst. repeat split; eauto. }
  destruct (truthy_str (clean_content message)) eqn:Ec,
           (truthy_list (attachments message)) eqn:Ea;
    try apply truthy_str_true in Ec; try apply truthy_str_false in Ec;
    try apply truthy_list_true in Ea; try apply truthy_list_false in Ea;
    forward_cases Hrun; cbn;
    (split; [split; [discriminate || (intros _; right; split; assumption)
                    | intros [[why Hwhy] | [Hc Ha]];
                      [discriminate Hwhy | congruence || reflexivity]]
            | discriminate || (intros _; split; reflexivity)]).
Qed.

(** X7. Whatever the collaborators do, [on_message] makes at most three
    calls, and each of them is a post through the held webhook under the
    display name and avatar of the author of this message, the forward of
    this message to the held webhook, or a log entry of an exception.  It
    never sends a direct message, adds a reaction or fetches a webhook. *)
Theorem on_message_calls self message r self' tr :
  on_message env message self = (r, self', tr) ->
  (length tr <= 3)%nat
  /\ (tr = [] \/ exists w, webhook self = Some w /\ Forall (relay_event w message) tr)
  /\ filter is_dm tr = [] /\ filter is_reaction tr = [] /\ filter is_fetch tr = [].
Proof.
  intros Hrun. unfold on_message in Hrun. coro_simpl.
  destruct (relay_guard self message) as [why|w] eqn:Eg.
  { inversion Hrun; subst. cbn. repeat split; auto. }
  destruct (relay_guard_inr_inv _ _ _ Eg) as (_ & _ & Hw).
  destruct (truthy_str (clean_content message)),
           (truthy_list (attachments message));
    forward_cases Hrun; cbn;
    (split; [repeat constructor|]);
    (split; [|repeat split; reflexivity]);
    try (left; reflexivity);
    right; exists w; (split; [exact Hw|]);
    repeat constructor.
Qed.

(** X8. When the direct message of the reply command raised, [send_dm]
    raises the same exception right away: that call is the only one made,
    so the invoking message gets no reaction at all, neither ✅ nor ❌. *)
Theorem send_dm_failure_propagates self ctx member body u e r self' tr :
  send_dm env ctx member body self = (r, self', tr) ->
  In (Ev (Send u body) (Some e)) tr ->
  r = Raised e
  /\ tr = [Ev (Send u body) (Some e)]
  /\ filter is_reaction tr = [].
Proof.
  intros Hrun Hin.
  unfold send_dm in Hrun. coro_simpl.
  destruct member as [m|]; [|destruct (last_dm_user self) as [v|]];
    reply_cases Hrun; in_trace Hin; repeat split; reflexivity.
Qed.

(** X9. The reactions of [send_dm] can be trusted.  A ✅ is added only
    after a direct message carrying the body was sent and returned, and a
    ❌ only when no target was given, none was recorded and no direct
    message was attempted.  At most one reaction is added, every call is a
    direct message carrying the body, a reaction on the invoking message
    or a debug log entry, and no webhook post is ever made. *)
Theorem send_dm_reactions self ctx member body r self' tr :
  send_dm env ctx member body self = (r, self', tr) ->
  (forall m o, In (Ev (AddReaction m "✅") o) tr ->
     exists u, tr = [Ev (Send u body) None; Ev (AddReaction (ctx_message ctx) "✅") o]
               /\ (member = Some u \/ (member = None /\ last_dm_user self = Some u)))
  /\ (forall m o, In (Ev (AddReaction m "❌") o) tr ->
        member = None /\ last_dm_user self = None /\ filter is_dm tr = [])
  /\ (length (filter is_reaction tr) <= 1)%nat
  /\ Forall (reply_event ctx body) tr
  /\ filter is_webhook_post tr = [].
Proof.
  intros Hrun.
  unfold send_dm in Hrun. coro_simpl.
  destruct member as [m0|]; [|destruct (last_dm_user self) as [v|] eqn:El];
    reply_cases Hrun; cbn;
    (split; [intros m o Hin; in_trace Hin; eexists; split; eauto|]);
    (split; [intros m o Hin; in_trace Hin; repeat split; reflexivity|]);
    (split; [repeat constructor|]);
    (split; [repeat constructor | reflexivity]).
Qed.

(** X10. Relay, then reply: once [on_message] has posted the text of a
    message and that post returned, a reply without target run on the
    attributes it left goes to the author of that message, and to nobody
    else, whoever was recorded before. *)
Theorem relay_then_reply self message w r1 self1 t1 ctx body r2 self2 t2 :
  webhook self = Some w ->
  on_message env message self = (r1, self1, t1) ->
  In (text_post w message None) t1 ->
  send_dm env ctx None body self1 = (r2, self2, t2) ->
  exists o,
    hd_error t2 = Some (Ev (Send (author message) body) o)
    /\ filter is_dm t2 = [Ev (Send (author message) body) o].
Proof.
  intros Hw Hrun Hin Hreply.
  assert (Hlast : last_dm_user self1 = Some (author message)).
  { unfold on_message in Hrun. coro_simpl.
    destruct (relay_guard self message) as [|w'] eqn:Eg.
    { inversion Hrun; subst. in_trace Hin. }
    destruct (relay_guard_inr_inv _ _ _ Eg) as (_ & _ & Hw').
    assert (w' = w) by congruence. subst w'.
    unfold text_post in *.
    destruct (truthy_str (clean_content message)),
             (truthy_list (attachments message));
      forward_cases Hrun; in_trace Hin; reflexivity. }
  unfold send_dm in Hreply. coro_simpl. rewrite Hlast in Hreply.
  exists (raises env (Send (author message) body)).
  reply_cases Hreply; cbn; split; reflexivity.
Qed.

Lemma on_message_step self message r self' tr :
  on_message env message self = (r, self', tr) ->
  webhook self' = webhook self
  /\ webhook_id self' = webhook_id self
  /\ (last_dm_user self' = last_dm_user self
      \/ (last_dm_user self' = Some (author message)
          /\ bot (author message) = false /\ guild message = None
          /\ clean_content message <> "")).
Proof.
  intros Hrun. unfold on_message in Hrun. coro_simpl.
  destruct (relay_guard self message) as [why|w] eqn:Eg.
  { inversion Hrun; subst. auto. }
  destruct (relay_guard_inr_inv _ _ _ Eg) as (Hb & Hg & _).
  destruct (truthy_str (clean_content message)) eqn:Ec;
    [apply truthy_str_true in Ec|];
    destruct (truthy_list (attachments message));
    forward_cases Hrun; cbn;
    (split; [reflexivity|]); (split; [reflexivity|]);
    first [left; reflexivity | right; repeat split; assumption].
Qed.

(** X11. However many messages are delivered and whatever the collaborators
    do, [last_dm_user] afterwards is either what it was before or the
    author of one of the delivered messages, and then a human who wrote a
    direct message with text.  So the reply command never falls back on a
    bot, nor on somebody who only wrote in a guild. *)
Theorem deliver_last_dm_user messages : forall self self' tr,
  deliver env messages self = (self', tr) ->
  last_dm_user self' = last_dm_user self
  \/ exists u, last_dm_user self' = Some u /\ text_dm_sender messages u.
Proof.
  induction messages as [|message rest IH]; intros self self' tr Hrun;
    cbn [deliver] in Hrun.
  - inversion Hrun; subst. left; reflexivity.
  - destruct (on_message env message self) as [[r1 self1] t1] eqn:E1.
    destruct (deliver env rest self1) as [self2 t2] eqn:E2.
    inversion Hrun; subst; clear Hrun.
    destruct (IH _ _ _ E2) as [Hsame | (u & Hu & m & Hin & Hm)].
    + destruct (on_message_step _ _ _ _ _ E1) as (_ & _ & [Hkeep | (Hnew & Hb & Hg & Hc)]).
      * left. congruence.
      * right. exists (author message). split; [congruence|].
        exists message. repeat split; auto. left; reflexivity.
    + right. exists u. split; [exact Hu|].
      exists m. split; [right; exact Hin | exact Hm].
Qed.

(** X12. Delivering messages never changes the webhook handle nor the
    configured identifier, however many messages arrive and whatever the
    collaborators do: whether the relay is active is decided by
    [fetch_webhook] alone. *)
Theorem deliver_preserves_webhook messages : forall self self' tr,
  deliver env messages self = (self', tr) ->
  webhook self' = webhook self /\ webhook_id self' = webhook_id self.
Proof.
  induction messages as [|message rest IH]; intros self self' tr Hrun;
    cbn [deliver] in Hrun.
  - inversion Hrun; subst. split; reflexivity.
  - destruct (on_message env message self) as [[r1 self1] t1] eqn:E1.
    destruct (deliver env rest self1) as [self2 t2] eqn:E2.
    inversion Hrun; subst; clear Hrun.
    destruct (IH _ _ _ E2) as (H1 & H2).
    destruct (on_message_step _ _ _ _ _ E1) as (H3 & H4 & _).
    split; congruence.
Qed.

(** X13. Startup, then relay: when [fetch_webhook] run on the attributes of
    [__init__] fetched the webhook, the first call [on_message] makes for a
    direct message of a human with text is the post of that text through
    the handle fetched for [Webhooks.dm_log]. *)
Theorem fetch_then_relay r0 self0 t0 message r self' tr :
  fetch_webhook env (init cfg) = (r0, self0, t0) ->
  In (Ev (FetchWebhook (Webhooks_dm_log cfg)) None) t0 ->
  bot (author message) = false -> guild message = None ->
  clean_content message <> "" ->
  on_message env message self0 = (r, self', tr) ->
  exists o,
    hd_error tr = Some (text_post (fetched env (Webhooks_dm_log cfg)) message o).
Proof.
  intros Hfetch Hin Hb Hg Hc Hrun.
  assert (Hw : webhook self0 = Some (fetched env (Webhooks_dm_log cfg))).
  { unfold fetch_webhook in Hfetch. coro_simpl.
    destruct (raises env WaitUntilGuildAvailable).
    { inversion Hfetch; subst. in_trace Hin. }
    destruct (raises env (FetchWebhook (webhook_id (init cfg)))) as [e|].
    - destruct (isinstance e HTTPException); inversion Hfetch; subst; in_trace Hin.
    - inversion Hfetch; subst. reflexivity. }
  unfold on_message in Hrun. coro_simpl.
  rewrite (relay_guard_inr _ _ _ Hb Hg Hw) in Hrun.
  rewrite (truthy_str_nonempty _ Hc) in Hrun.
  unfold text_post.
  destruct (truthy_list (attachments message));
    forward_cases Hrun; cbn; eexists; reflexivity.
Qed.

End Properties.

(** ** Concrete runs *)

Lemma on_message_relays_text_witness :
  exists o,
    filter is_text_post
      [text_post dm_log captioned_dm None; Ev (SendAttachments captioned_dm dm_log) None]
    = [text_post dm_log captioned_dm o]
    /\ (o = None -> last_dm_user (ready (Some bob)) = Some bob)
    /\ (Returned tt = Returned tt -> o = None).
Proof.
  apply (on_message_relays_text env_ok (ready (Some alice)) captioned_dm dm_log
           (Returned tt) (ready (Some bob))
           [text_post dm_log captioned_dm None; Ev (SendAttachments captioned_dm dm_log) None]);
    try reflexivity.
  discriminate.
Defined.

Lemma on_message_skips_witness :
  (bot (author guild_msg) = true \/ guild guild_msg <> None
   \/ webhook (ready (Some alice)) = None)
  /\ on_message env_ok guild_msg (ready (Some alice)) = (Returned tt, ready (Some alice), []).
Proof.
  assert (H : bot (author guild_msg) = true \/ guild guild_msg <> None
              \/ webhook (ready (Some alice)) = None)
    by (right; left; discriminate).
  split; [exact H|].
  exact (proj1 (on_message_skips env_ok (ready (Some alice)) guild_msg H)).
Defined.

Lemma on_message_attachment_unavailable_witness :
  exists pre o,
    [text_post dm_log captioned_dm None;
     Ev (SendAttachments captioned_dm dm_log) (Some Forbidden);
     error_post dm_log captioned_dm None]
    = pre ++ [Ev (SendAttachments captioned_dm dm_log) (Some Forbidden);
              Ev (SendWebhook dm_log None "bob" "https://cdn.example/avatars/102.png"
                    (Some {| description :=
                               ":x: **This message contained an attachment, but it could not be retrieved**";
                             color := 0xe74c3c |})) o]
    /\ filter is_embed_post
         [text_post dm_log captioned_dm None;
          Ev (SendAttachments captioned_dm dm_log) (Some Forbidden);
          error_post dm_log captioned_dm None]
       = [Ev (SendWebhook dm_log None "bob" "https://cdn.example/avatars/102.png"
                    (Some {| description :=
                               ":x: **This message contained an attachment, but it could not be retrieved**";
                             color := 0xe74c3c |})) o]
    /\ filter is_forward pre = []
    /\ description attachment_error_embed
       = ":x: **This message contained an attachment, but it could not be retrieved**"
    /\ color attachment_error_embed = 0xe74c3c
    /\ color attachment_error_embed = Color_red.
Proof.
  apply (on_message_attachment_unavailable (env_forward_fails Forbidden)
           (ready None) captioned_dm dm_log Forbidden
           (Returned tt) (ready (Some bob))).
  - reflexivity.
  - reflexivity.
  - reflexivity.
  - discriminate.
  - reflexivity.
  - right; left; reflexivity.
  - left; reflexivity.
Defined.

Lemma on_message_attachment_transport_error_witness :
  Returned tt = Returned tt
  /\ exists pre,
       [Ev (SendAttachments picture_dm dm_log) (Some DiscordServerError);
        Ev (LogException "Failed to send an attachment to the webhook" DiscordServerError) None]
       = pre ++ [Ev (SendAttachments picture_dm dm_log) (Some DiscordServerError);
                 Ev (LogException "Failed to send an attachment to the webhook"
                       DiscordServerError) None]
       /\ (pre = [] \/ pre = [text_post dm_log picture_dm None])
       /\ filter is_embed_post
            [Ev (SendAttachments picture_dm dm_log) (Some DiscordServerError);
             Ev (LogException "Failed to send an attachment to the webhook"
                   DiscordServerError) None] = [].
Proof.
  apply (on_message_attachment_transport_error (env_forward_fails DiscordServerError)
           (ready (Some alice)) picture_dm dm_log DiscordServerError
           (Returned tt) (ready (Some alice))).
  - reflexivity.
  - reflexivity.
  - reflexivity.
  - discriminate.
  - reflexivity.
  - left; reflexivity.
  - reflexivity.
  - discriminate.
  - discriminate.
Defined.

(** C4. A direct message of a human that carries only an attachment is
    relayed (the attachment is forwarded through the webhook) and the
    handler returns, yet [last_dm_user] is still the earlier sender and
    not the author of the message. *)
Theorem on_message_attachment_only_keeps_last_dm_user :
  relay_guard (ready (Some alice)) picture_dm = inr dm_log
  /\ on_message env_ok picture_dm (ready (Some alice))
     = (Returned tt, ready (Some alice), [Ev (SendAttachments picture_dm dm_log) None])
  /\ last_dm_user (attrs_after (on_message env_ok picture_dm (ready (Some alice))))
     = Some alice
  /\ last_dm_user (attrs_after (on_message env_ok picture_dm (ready (Some alice))))
     <> Some (author picture_dm).
Proof.
  repeat split; try reflexivity. cbn. intros H. inversion H.
Qed.

Lemma reply_without_target_witness :
  (forall u, last_dm_user (ready (Some bob)) = Some u ->
     exists o,
       filter is_dm [Ev (Send bob "thanks") None;
                     Ev (AddReaction (reply_msg moderator) "✅") None]
       = [Ev (Send u "thanks") o]
       /\ hd_error [Ev (Send bob "thanks") None;
                    Ev (AddReaction (reply_msg moderator) "✅") None]
          = Some (Ev (Send u "thanks") o)
       /\ (o = None ->
           exists o', [Ev (Send bob "thanks") None;
                       Ev (AddReaction (reply_msg moderator) "✅") None]
                      = [Ev (Send u "thanks") None;
                         Ev (AddReaction (ctx_message (reply_ctx moderator)) "✅") o']))
  /\ (last_dm_user (ready (Some bob)) = None ->
      filter is_dm [Ev (Send bob "thanks") None;
                    Ev (AddReaction (reply_msg moderator) "✅") None] = []
      /\ exists o', [Ev (Send bob "thanks") None;
                     Ev (AddReaction (reply_msg moderator) "✅") None]
                    = [Ev (LogDebug "Unable to send a DM to the user.") None;
                       Ev (AddReaction (ctx_message (reply_ctx moderator)) "❌") o']).
Proof.
  apply (reply_without_target sample_cfg env_ok (ready (Some bob)) (reply_ctx moderator)
           "thanks" (Returned tt) (ready (Some bob))).
  - reflexivity.
  - reflexivity.
Defined.

Lemma reply_with_target_witness :
  exists o,
    filter is_dm [Ev (Send alice "thanks") None;
                  Ev (AddReaction (reply_msg moderator) "✅") None]
    = [Ev (Send alice "thanks") o]
    /\ hd_error [Ev (Send alice "thanks") None;
                 Ev (AddReaction (reply_msg moderator) "✅") None]
       = Some (Ev (Send alice "thanks") o)
    /\ (o = None ->
        exists o', [Ev (Send alice "thanks") None;
                    Ev (AddReaction (reply_msg moderator) "✅") None]
                   = [Ev (Send alice "thanks") None;
                      Ev (AddReaction (ctx_message (reply_ctx moderator)) "✅") o']).
Proof.
  apply (reply_with_target sample_cfg env_ok (ready (Some bob)) (reply_ctx moderator)
           alice "thanks" (Returned tt) (ready (Some bob))).
  - reflexivity.
  - reflexivity.
Defined.

Lemma unauthorized_reply_rejected_witness :
  cog_check sample_cfg (reply_ctx helper) = false
  /\ invoke_send_dm sample_cfg env_ok (reply_ctx helper) None "thanks" (ready (Some bob))
     = (Raised CheckFailure, ready (Some bob), []).
Proof.
  apply (unauthorized_reply_rejected sample_cfg env_ok (ready (Some bob))
           (reply_ctx helper) None "thanks").
  intros role Hin Hmod. cbn in Hin, Hmod.
  repeat match goal with
         | H : _ \/ _ |- _ => destruct H
         | H : False |- _ => contradiction
         end; subst; discriminate.
Defined.


(** ** Concrete runs of the further behaviour *)

Lemma fetch_webhook_stores_handle_witness :
  Returned tt = Returned tt
  /\ webhook (ready None) = Some (fetched env_ok (webhook_id (init sample_cfg)))
  /\ last_dm_user (ready None) = last_dm_user (init sample_cfg)
  /\ webhook_id (ready None) = webhook_id (init sample_cfg)
  /\ [Ev WaitUntilGuildAvailable None; Ev (FetchWebhook 654321) None]
     = [Ev WaitUntilGuildAvailable None;
        Ev (FetchWebhook (webhook_id (init sample_cfg))) None].
Proof.
  apply (fetch_webhook_stores_handle env_ok (init sample_cfg) (Returned tt) (ready None)).
  - reflexivity.
  - right; left; reflexivity.
Defined.

Lemma fetch_webhook_raises_only_witness :
  init sample_cfg = init sample_cfg
  /\ filter is_log [Ev WaitUntilGuildAvailable None;
                    Ev (FetchWebhook 654321) (Some RuntimeError)] = []
  /\ ([Ev WaitUntilGuildAvailable None; Ev (FetchWebhook 654321) (Some RuntimeError)]
      = [Ev WaitUntilGuildAvailable (Some RuntimeError)]
      \/ (isinstance RuntimeError HTTPException = false
          /\ [Ev WaitUntilGuildAvailable None; Ev (FetchWebhook 654321) (Some RuntimeError)]
             = [Ev WaitUntilGuildAvailable None;
                Ev (FetchWebhook (webhook_id (init sample_cfg))) (Some RuntimeError)])).
Proof.
  apply (fetch_webhook_raises_only (env_fetch_fails RuntimeError) (init sample_cfg)
           RuntimeError (init sample_cfg)).
  reflexivity.
Defined.

Lemma on_message_text_post_failure_witness :
  Raised DiscordServerError = Raised (A:=unit) DiscordServerError
  /\ ready (Some alice) = ready (Some alice)
  /\ [text_post dm_log captioned_dm (Some DiscordServerError)]
     = [text_post dm_log captioned_dm (Some DiscordServerError)].
Proof.
  apply (on_message_text_post_failure (env_text_post_fails DiscordServerError)
           (ready (Some alice)) captioned_dm dm_log DiscordServerError).
  - reflexivity.
  - reflexivity.
  - left; reflexivity.
Defined.

Lemma on_message_raises_only_witness :
  exists pre c,
    [Ev (SendAttachments picture_dm dm_log) (Some RuntimeError)]
    = pre ++ [Ev c (Some RuntimeError)]
    /\ (is_webhook_post (Ev c (Some RuntimeError)) = true
        \/ (is_forward (Ev c (Some RuntimeError)) = true
            /\ isinstance RuntimeError HTTPException = false))
    /\ filter is_log [Ev (SendAttachments picture_dm dm_log) (Some RuntimeError)] = [].
Proof.
  apply (on_message_raises_only (env_forward_fails RuntimeError)
           (ready (Some alice)) picture_dm RuntimeError (ready (Some alice))).
  reflexivity.
Defined.

Lemma on_message_forward_returned_witness :
  Returned tt = Returned tt
  /\ exists pre,
       [text_post dm_log captioned_dm None; Ev (SendAttachments captioned_dm dm_log) None]
       = pre ++ [Ev (SendAttachments captioned_dm dm_log) None]
       /\ (pre = [] \/ pre = [text_post dm_log captioned_dm None])
       /\ filter is_embed_post
            [text_post dm_log captioned_dm None;
             Ev (SendAttachments captioned_dm dm_log) None] = []
       /\ filter is_log
            [text_post dm_log captioned_dm None;
             Ev (SendAttachments captioned_dm dm_log) None] = [].
Proof.
  apply (on_message_forward_returned env_ok (ready None) captioned_dm dm_log
           (Returned tt) (ready (Some bob))).
  - reflexivity.
  - reflexivity.
  - right; left; reflexivity.
Defined.

Lemma on_message_silent_iff_witness :
  (@nil event = [] <->
   (exists why, relay_guard (ready (Some alice)) blank_dm = inl why)
   \/ (clean_content blank_dm = "" /\ attachments blank_dm = []))
  /\ (@nil event = [] -> Returned tt = Returned tt /\ ready (Some alice) = ready (Some alice)).
Proof.
  apply (on_message_silent_iff env_ok (ready (Some alice)) blank_dm).
  reflexivity.
Defined.

Lemma on_message_calls_witness :
  (length [text_post dm_log captioned_dm None;
           Ev (SendAttachments captioned_dm dm_log) (Some Forbidden);
           error_post dm_log captioned_dm None] <= 3)%nat
  /\ ([text_post dm_log captioned_dm None;
       Ev (SendAttachments captioned_dm dm_log) (Some Forbidden);
       error_post dm_log captioned_dm None] = []
      \/ exists w, webhook (ready None) = Some w
                   /\ Forall (relay_event w captioned_dm)
                        [text_post dm_log captioned_dm None;
                         Ev (SendAttachments captioned_dm dm_log) (Some Forbidden);
                         error_post dm_log captioned_dm None])
  /\ filter is_dm [text_post dm_log captioned_dm None;
                   Ev (SendAttachments captioned_dm dm_log) (Some Forbidden);
                   error_post dm_log captioned_dm None] = []
  /\ filter is_reaction [text_post dm_log captioned_dm None;
                         Ev (SendAttachments captioned_dm dm_log) (Some Forbidden);
                         error_post dm_log captioned_dm None] = []
  /\ filter is_fetch [text_post dm_log captioned_dm None;
                      Ev (SendAttachments captioned_dm dm_log) (Some Forbidden);
                      error_post dm_log captioned_dm None] = [].
Proof.
  apply (on_message_calls (env_forward_fails Forbidden) (ready None) captioned_dm
           (Returned tt) (ready (Some bob))).
  reflexivity.
Defined.

Lemma send_dm_failure_propagates_witness :
  Raised Forbidden = Raised (A:=unit) Forbidden
  /\ [Ev (Send bob "thanks") (Some Forbidden)] = [Ev (Send bob "thanks") (Some Forbidden)]
  /\ filter is_reaction [Ev (Send bob "thanks") (Some Forbidden)] = [].
Proof.
  apply (send_dm_failure_propagates (env_dm_fails Forbidden) (ready (Some bob))
           (reply_ctx moderator) None "thanks" bob Forbidden
           (Raised Forbidden) (ready (Some bob))).
  - reflexivity.
  - left; reflexivity.
Defined.

Lemma send_dm_reactions_witness :
  (forall m o,
     In (Ev (AddReaction m "✅") o)
        [Ev (Send alice "thanks") None; Ev (AddReaction (reply_msg moderator) "✅") None] ->
     exists u,
       [Ev (Send alice "thanks") None; Ev (AddReaction (reply_msg moderator) "✅") None]
       = [Ev (Send u "thanks") None;
          Ev (AddReaction (ctx_message (reply_ctx moderator)) "✅") o]
       /\ (Some alice = Some u \/ (Some alice = None /\ last_dm_user (ready None) = Some u)))
  /\ (forall m o,
        In (Ev (AddReaction m "❌") o)
           [Ev (Send alice "thanks") None; Ev (AddReaction (reply_msg moderator) "✅") None] ->
        Some alice = None /\ last_dm_user (ready None) = None
        /\ filter is_dm [Ev (Send alice "thanks") None;
                         Ev (AddReaction (reply_msg moderator) "✅") None] = [])
  /\ (length (filter is_reaction
                [Ev (Send alice "thanks") None;
                 Ev (AddReaction (reply_msg moderator) "✅") None]) <= 1)%nat
  /\ Forall (reply_event (reply_ctx moderator) "thanks")
            [Ev (Send alice "thanks") None;
             Ev (AddReaction (reply_msg moderator) "✅") None]
  /\ filter is_webhook_post
       [Ev (Send alice "thanks") None;
        Ev (AddReaction (reply_msg moderator) "✅") None] = [].
Proof.
  apply (send_dm_reactions env_ok (ready None) (reply_ctx moderator) (Some alice) "thanks"
           (Returned tt) (ready None)).
  reflexivity.
Defined.

Lemma relay_then_reply_witness :
  exists o,
    hd_error [Ev (Send bob "thanks") None; Ev (AddReaction (reply_msg moderator) "✅") None]
    = Some (Ev (Send (author captioned_dm) "thanks") o)
    /\ filter is_dm [Ev (Send bob "thanks") None;
                     Ev (AddReaction (reply_msg moderator) "✅") None]
       = [Ev (Send (author captioned_dm) "thanks") o].
Proof.
  apply (relay_then_reply env_ok (ready (Some alice)) captioned_dm dm_log
           (Returned tt) (ready (Some bob))
           [text_post dm_log captioned_dm None; Ev (SendAttachments captioned_dm dm_log) None]
           (reply_ctx moderator) "thanks" (Returned tt) (ready (Some bob))).
  - reflexivity.
  - reflexivity.
  - left; reflexivity.
  - reflexivity.
Defined.

Lemma deliver_last_dm_user_witness :
  last_dm_user (ready (Some alice)) = last_dm_user (ready None)
  \/ exists u, last_dm_user (ready (Some alice)) = Some u
               /\ text_dm_sender [alice_dm; guild_msg; picture_dm] u.
Proof.
  apply (deliver_last_dm_user env_ok [alice_dm; guild_msg; picture_dm] (ready None)
           (ready (Some alice))
           [text_post dm_log alice_dm None; Ev (SendAttachments picture_dm dm_log) None]).
  reflexivity.
Defined.

Lemma deliver_preserves_webhook_witness :
  webhook (ready (Some alice)) = webhook (ready None)
  /\ webhook_id (ready (Some alice)) = webhook_id (ready None).
Proof.
  apply (deliver_preserves_webhook env_ok [alice_dm; guild_msg; picture_dm] (ready None)
           (ready (Some alice))
           [text_post dm_log alice_dm None; Ev (SendAttachments picture_dm dm_log) None]).
  reflexivity.
Defined.

Lemma fetch_then_relay_witness :
  exists o,
    hd_error [text_post dm_log alice_dm None]
    = Some (text_post (fetched env_ok (Webhooks_dm_log sample_cfg)) alice_dm o).
Proof.
  apply (fetch_then_relay sample_cfg env_ok (Returned tt) (ready None)
           [Ev WaitUntilGuildAvailable None; Ev (FetchWebhook 654321) None]
           alice_dm (Returned tt) (ready (Some alice))).
  - reflexivity.
  - right; left; reflexivity.
  - reflexivity.
  - reflexivity.
  - discriminate.
  - reflexivity.
Defined.
